(** * NeoHub-Control: the hub client and the zone classifier

    A shallow embedding of [neohub/neohub.py] (the [Device] and
    [LiveInfoDevice] decoders and the [NeoHub] client) and of the two
    classifier helpers of [app.py] ([get_device_type] and
    [is_valid_temperature]).

    Python values are dynamically typed, so the embedding works over one
    type [pyval] of values: what [response.json()] can return, plus the
    dataclass instances the decoders build.  Python dictionaries keep their
    insertion order and have unique keys; they are association lists here,
    read with first-match lookup.  Python floats are IEEE-754 binary64
    numbers, taken from the Standard Library's [SpecFloat].  Text is a
    [string] of bytes: the embedding follows Python on ASCII text. *)

From Stdlib Require Import ZArith List String Ascii Bool Lia.
From Stdlib Require Import Floats.SpecFloat.
From Stdlib Require Import Numbers.DecimalString.
Import ListNotations.
Local Open Scope string_scope.
Local Open Scope Z_scope.
Local Set Warnings "-register-all".

(** ** Python values *)

Inductive pyval : Type :=
| VNone
| VBool (b : bool)
| VInt (z : Z)
| VFloat (f : spec_float)
| VStr (s : string)
| VList (l : list pyval)
| VDict (d : list (string * pyval))
| VObj (cls : string) (attrs : list (string * pyval)).

(** A dictionary with string keys, in insertion order. *)
Definition pydict := list (string * pyval).

(** The exceptions the modelled code can raise or meet.  [Exception] is the
    generic exception the client raises itself, with its message. *)
Inductive exn : Type :=
| Exception (msg : string)
| KeyError (key : string)
| TypeError (msg : string)
| ValueError (msg : string)
| AttributeError (type_name attr : string)
| OverflowError (msg : string)
| TransportError (msg : string).

(** A computation that returns a value or raises. *)
Definition result (A : Type) := sum exn A.

Definition bind_result {A B} (r : result A) (k : A -> result B) : result B :=
  match r with
  | inl e => inl e
  | inr a => k a
  end.

(** [type(v).__name__] *)
Definition type_name_of (v : pyval) : string :=
  match v with
  | VNone => "NoneType"
  | VBool _ => "bool"
  | VInt _ => "int"
  | VFloat _ => "float"
  | VStr _ => "str"
  | VList _ => "list"
  | VDict _ => "dict"
  | VObj c _ => c
  end.

(** ** Dictionaries *)

Fixpoint dict_get (d : pydict) (k : string) : option pyval :=
  match d with
  | [] => None
  | (k', v) :: d' => if String.eqb k' k then Some v else dict_get d' k
  end.

(** [k in d] *)
Definition dict_mem (d : pydict) (k : string) : bool :=
  match dict_get d k with
  | Some _ => true
  | None => false
  end.

(** [d[k] = v]: an existing key keeps its place, a new key goes last. *)
Fixpoint dict_set (d : pydict) (k : string) (v : pyval) : pydict :=
  match d with
  | [] => [(k, v)]
  | (k', v') :: d' =>
      if String.eqb k' k then (k', v) :: d' else (k', v') :: dict_set d' k v
  end.

(** [{k: v for k, v in d.items() if keep(k)}] *)
Definition dict_filter_keys (keep : string -> bool) (d : pydict) : pydict :=
  filter (fun kv => keep (fst kv)) d.

(** ** Binary64 numbers *)

Definition prec : Z := 53.
Definition emax : Z := 1024.

(** [float(z)] for an integer [z], before the overflow test. *)
Definition float_of_Z (z : Z) : spec_float :=
  binary_normalize prec emax z 0 false.

Definition float_zero : spec_float := S754_zero false.

(** Python compares a float with an integer by value, exactly.
    [None] is the answer for a NaN, which compares false with everything. *)
Definition float_cmp_Z (f : spec_float) (n : Z) : option comparison :=
  match f with
  | S754_nan => None
  | S754_infinity s => Some (if s then Lt else Gt)
  | S754_zero _ => Some (0 ?= n)
  | S754_finite s m e =>
      let m' := if s then Z.neg m else Z.pos m in
      Some (if 0 <=? e then (m' * 2 ^ e ?= n) else (m' ?= n * 2 ^ (- e)))
  end.

(** [n <= f] *)
Definition Z_le_float (n : Z) (f : spec_float) : bool :=
  match float_cmp_Z f n with
  | Some (Gt | Eq) => true
  | _ => false
  end.

(** [f <= n] *)
Definition float_le_Z (f : spec_float) (n : Z) : bool :=
  match float_cmp_Z f n with
  | Some (Lt | Eq) => true
  | _ => false
  end.

(** [f == n] *)
Definition float_eq_Z (f : spec_float) (n : Z) : bool :=
  match float_cmp_Z f n with
  | Some Eq => true
  | _ => false
  end.

(** ** The interpreter's builtins

    The source calls four builtins whose behaviour on arbitrary Unicode text
    is fixed by the interpreter, not by this repository: [float(s)] on a
    string ([None] stands for the [ValueError] of a string that does not
    parse), [repr] of a float and of a string, and [str.upper].  The client
    and the decoders are defined over any such builtins; [ascii_builtins]
    below implements them for ASCII text. *)

Class PyBuiltins : Type := {
  float_of_str : string -> option spec_float;
  repr_float : spec_float -> string;
  repr_str : string -> string;
  str_upper : string -> string
}.

(** *** Text helpers *)

Definition Z_to_string (z : Z) : string := NilZero.string_of_int (Z.to_int z).

Definition ascii_code (c : ascii) : Z := Z.of_nat (nat_of_ascii c).

Definition is_digit (c : ascii) : bool :=
  (48 <=? ascii_code c) && (ascii_code c <=? 57).

Definition digit_val (c : ascii) : Z := ascii_code c - 48.

(** The characters [float] strips: space, and the controls 9 to 13. *)
Definition is_space (c : ascii) : bool :=
  (ascii_code c =? 32) || ((9 <=? ascii_code c) && (ascii_code c <=? 13)).

Definition to_lower (c : ascii) : ascii :=
  if (65 <=? ascii_code c) && (ascii_code c <=? 90)
  then ascii_of_nat (nat_of_ascii c + 32) else c.

Definition to_upper (c : ascii) : ascii :=
  if (97 <=? ascii_code c) && (ascii_code c <=? 122)
  then ascii_of_nat (nat_of_ascii c - 32) else c.

Fixpoint drop_while {A} (p : A -> bool) (l : list A) : list A :=
  match l with
  | [] => []
  | x :: l' => if p x then drop_while p l' else l
  end.

Fixpoint take_while {A} (p : A -> bool) (l : list A) : list A :=
  match l with
  | [] => []
  | x :: l' => if p x then x :: take_while p l' else []
  end.

Definition strip_spaces (l : list ascii) : list ascii :=
  rev (drop_while is_space (rev (drop_while is_space l))).

Fixpoint join (sep : string) (l : list string) : string :=
  match l with
  | [] => EmptyString
  | [x] => x
  | x :: l' => x ++ sep ++ join sep l'
  end.

(** [needle in haystack] for two strings. *)
Fixpoint contains_substring (needle haystack : string) : bool :=
  if String.prefix needle haystack then true
  else match haystack with
       | EmptyString => false
       | String _ rest => contains_substring needle rest
       end.

(** *** [float(s)] on ASCII text

    The grammar of the interpreter: surrounding whitespace is stripped; an
    underscore may stand between two digits; then an optional sign and
    either [inf], [infinity] or [nan] in any case, or a decimal number with
    an optional fraction and exponent.  The value is the decimal number
    rounded to the nearest binary64, ties to even; a number too large
    becomes an infinity. *)

(** The scan that drops underscores: each must follow a digit and precede
    one.  [prev] is the previous character. *)
Fixpoint drop_underscores (prev : ascii) (l : list ascii) : option (list ascii) :=
  match l with
  | [] => if Ascii.eqb prev "_" then None else Some []
  | c :: l' =>
      if Ascii.eqb c "_" then
        if is_digit prev then drop_underscores c l' else None
      else if Ascii.eqb prev "_" && negb (is_digit c) then None
      else option_map (cons c) (drop_underscores c l')
  end.

Definition digits_value (l : list ascii) : Z :=
  fold_left (fun acc c => 10 * acc + digit_val c) l 0.

(** An optional sign; [true] is minus. *)
Definition split_sign (l : list ascii) : bool * list ascii :=
  match l with
  | c :: l' =>
      if Ascii.eqb c "-" then (true, l')
      else if Ascii.eqb c "+" then (false, l')
      else (false, l)
  | [] => (false, l)
  end.

(** The exponent part: empty ([Some 0]), or [e], a sign and digits. *)
Definition parse_exponent (l : list ascii) : option Z :=
  match l with
  | [] => Some 0
  | c :: l' =>
      if Ascii.eqb (to_lower c) "e" then
        let '(neg, ds) := split_sign l' in
        match ds with
        | [] => None
        | _ => if forallb is_digit ds
               then Some (if neg then - digits_value ds else digits_value ds)
               else None
        end
      else None
  end.

(** A decimal number as [(mantissa, exponent of ten)]. *)
Definition parse_decimal (l : list ascii) : option (Z * Z) :=
  let int_part := take_while is_digit l in
  let rest := drop_while is_digit l in
  let '(frac_part, rest') :=
    match rest with
    | c :: r =>
        if Ascii.eqb c "." then (take_while is_digit r, drop_while is_digit r)
        else ([], rest)
    | [] => ([], rest)
    end in
  let ds := (int_part ++ frac_part)%list in
  match ds with
  | [] => None
  | _ :: _ =>
      match parse_exponent rest' with
      | Some x => Some (digits_value ds, x - Z.of_nat (List.length frac_part))
      | None => None
      end
  end.

(** [mant * 10 ^ e10], rounded to the nearest binary64. *)
Definition float_of_decimal (neg : bool) (mant e10 : Z) : spec_float :=
  match mant with
  | Zpos m =>
      if 0 <=? e10 then
        binary_round prec emax neg (Z.to_pos (Zpos m * 10 ^ e10)) 0
      else
        let '(q, e, loc) :=
          SFdiv_core_binary prec emax (Zpos m) 0 (10 ^ (- e10)) 0 in
        binary_round_aux prec emax neg q e loc
  | _ => S754_zero neg
  end.

Definition float_of_ascii (s : string) : option spec_float :=
  match drop_underscores zero (strip_spaces (list_ascii_of_string s)) with
  | None => None
  | Some l =>
      let '(neg, body) := split_sign l in
      let word := string_of_list_ascii (map to_lower body) in
      if String.eqb word "inf" || String.eqb word "infinity"
      then Some (S754_infinity neg)
      else if String.eqb word "nan" then Some S754_nan
      else match parse_decimal body with
           | Some (mant, e10) => Some (float_of_decimal neg mant e10)
           | None => None
           end
  end.

(** *** [repr(x)] of a float

    The shortest decimal digits that read back as the same float (the
    nearest to it when several do), written in positional notation when the
    decimal point falls within sixteen digits and not more than four places
    left of the first digit, with an exponent otherwise. *)

Definition num_digits10 (z : Z) : Z := Z.of_nat (String.length (Z_to_string z)).

(** For a positive rational [num / den], the [d] with
    [10 ^ (d - 1) <= num / den < 10 ^ d]. *)
Definition decimal_point (num den : Z) : Z :=
  if den <=? num then num_digits10 (num / den)
  else 1 - num_digits10 (den / num).

Definition same_float (a b : spec_float) : bool :=
  match a, b with
  | S754_nan, S754_nan => true
  | S754_zero s, S754_zero s' => Bool.eqb s s'
  | S754_infinity s, S754_infinity s' => Bool.eqb s s'
  | S754_finite s m e, S754_finite s' m' e' =>
      Bool.eqb s s' && Pos.eqb m m' && Z.eqb e e'
  | _, _ => false
  end.

(** The [n]-digit decimal nearest to [num / den] among those that read back
    as [x]; its value is the result times [10 ^ (dpt - n)]. *)
Definition digits_candidate (x : spec_float) (num den dpt n : Z) : option Z :=
  let t := n - dpt in
  let nq := num * 10 ^ Z.max t 0 in
  let dq := den * 10 ^ Z.max (- t) 0 in
  let lo := nq / dq in
  let reads c := same_float (float_of_decimal false c (- t)) x in
  if nq mod dq =? 0 then (if reads lo then Some lo else None)
  else
    match reads lo, reads (lo + 1) with
    | true, true =>
        match 2 * nq ?= (2 * lo + 1) * dq with
        | Lt => Some lo
        | Gt => Some (lo + 1)
        | Eq => Some (if Z.even lo then lo else lo + 1)
        end
    | true, false => Some lo
    | false, true => Some (lo + 1)
    | false, false => None
    end.

Fixpoint first_candidate (x : spec_float) (num den dpt : Z) (ns : list Z)
  : option (Z * Z) :=
  match ns with
  | [] => None
  | n :: ns' =>
      match digits_candidate x num den dpt n with
      | Some c => Some (c, n)
      | None => first_candidate x num den dpt ns'
      end
  end.

Fixpoint strip_trailing_zeros (fuel : nat) (c : Z) : Z :=
  match fuel with
  | O => c
  | S fuel' => if (c mod 10 =? 0) && negb (c =? 0)
               then strip_trailing_zeros fuel' (c / 10) else c
  end.

(** The digits and the position of the decimal point of a positive finite
    float [m * 2 ^ e]: its value reads [0.digits * 10 ^ point]. *)
Definition shortest_digits (m : positive) (e : Z) : string * Z :=
  let num := Zpos m * 2 ^ Z.max e 0 in
  let den := 2 ^ Z.max (- e) 0 in
  let dpt := decimal_point num den in
  let x := S754_finite false m e in
  let '(c, n) :=
    match first_candidate x num den dpt
            [1; 2; 3; 4; 5; 6; 7; 8; 9; 10; 11; 12; 13; 14; 15; 16; 17] with
    | Some cn => cn
    | None => ((num * 10 ^ Z.max (17 - dpt) 0) / (den * 10 ^ Z.max (dpt - 17) 0), 17)
    end in
  (Z_to_string (strip_trailing_zeros 17 c), num_digits10 c - (n - dpt)).

Fixpoint zeros (n : nat) : string :=
  match n with
  | O => EmptyString
  | S n' => String "0" (zeros n')
  end.

Definition format_digits (ds : string) (point : Z) : string :=
  let n := Z.of_nat (String.length ds) in
  if (-4 <? point) && (point <=? 16) then
    if point <=? 0 then "0." ++ zeros (Z.to_nat (- point)) ++ ds
    else if n <=? point then ds ++ zeros (Z.to_nat (point - n)) ++ ".0"
    else substring 0 (Z.to_nat point) ds ++ "."
         ++ substring (Z.to_nat point) (Z.to_nat (n - point)) ds
  else
    let x := point - 1 in
    let xs := Z_to_string (Z.abs x) in
    substring 0 1 ds
    ++ (if 1 <? n then "." ++ substring 1 (Z.to_nat (n - 1)) ds else EmptyString)
    ++ "e" ++ (if x <? 0 then "-" else "+")
    ++ (if Z.abs x <? 10 then "0" ++ xs else xs).

Definition float_repr (x : spec_float) : string :=
  match x with
  | S754_nan => "nan"
  | S754_infinity s => if s then "-inf" else "inf"
  | S754_zero s => if s then "-0.0" else "0.0"
  | S754_finite s m e =>
      let '(ds, point) := shortest_digits m e in
      (if s then "-" ++ format_digits ds point else format_digits ds point)
  end.

(** *** [repr(s)] of a string and [s.upper()], on ASCII text *)

Definition hex_digit (n : Z) : ascii :=
  if n <? 10 then ascii_of_nat (Z.to_nat (48 + n))
  else ascii_of_nat (Z.to_nat (87 + n)).

Definition char_string (c : ascii) : string := String c EmptyString.

Definition double_quote : ascii := ascii_of_nat 34.

Definition escape_char (quote c : ascii) : string :=
  if Ascii.eqb c quote || Ascii.eqb c "\" then String "\" (char_string c)
  else if ascii_code c =? 9 then "\t"
  else if ascii_code c =? 10 then "\n"
  else if ascii_code c =? 13 then "\r"
  else if (ascii_code c <? 32) || (ascii_code c =? 127) then
    String "\" (String "x" (String (hex_digit (ascii_code c / 16))
                                   (char_string (hex_digit (ascii_code c mod 16)))))
  else char_string c.

Definition has_char (c : ascii) (s : string) : bool :=
  existsb (Ascii.eqb c) (list_ascii_of_string s).

(** Single quotes, unless the text has a single quote and no double one. *)
Definition str_repr (s : string) : string :=
  let quote : ascii :=
    if has_char "'" s && negb (has_char double_quote s)
    then double_quote else "'"%char in
  String quote
    (String.concat EmptyString (map (escape_char quote) (list_ascii_of_string s))
     ++ char_string quote).

Definition ascii_upper (s : string) : string :=
  string_of_list_ascii (map to_upper (list_ascii_of_string s)).

#[export] Instance ascii_builtins : PyBuiltins := {
  float_of_str := float_of_ascii;
  repr_float := float_repr;
  repr_str := str_repr;
  str_upper := ascii_upper
}.

(** ** Operations on values *)

Section Values.
Context {B : PyBuiltins}.

(** [repr(v)].  A dataclass instance prints as its class name and its
    fields. *)
Fixpoint py_repr (v : pyval) : string :=
  match v with
  | VNone => "None"
  | VBool b => if b then "True" else "False"
  | VInt z => Z_to_string z
  | VFloat f => repr_float f
  | VStr s => repr_str s
  | VList l => "[" ++ join ", " (map py_repr l) ++ "]"
  | VDict d =>
      "{" ++ join ", " (map (fun kv => repr_str (fst kv) ++ ": " ++ py_repr (snd kv)) d)
          ++ "}"
  | VObj c attrs =>
      c ++ "(" ++ join ", " (map (fun kv => fst kv ++ "=" ++ py_repr (snd kv)) attrs)
        ++ ")"
  end.

(** [str(v)], which is also how an f-string renders [{v}]. *)
Definition py_str (v : pyval) : string :=
  match v with
  | VStr s => s
  | _ => py_repr v
  end.

(** [str(e)] for an exception. *)
Definition exn_str (e : exn) : string :=
  match e with
  | Exception msg => msg
  | KeyError key => repr_str key
  | TypeError msg => msg
  | ValueError msg => msg
  | AttributeError t a => "'" ++ t ++ "' object has no attribute '" ++ a ++ "'"
  | OverflowError msg => msg
  | TransportError msg => msg
  end.

(** [float(v)] *)
Definition py_float (v : pyval) : result spec_float :=
  match v with
  | VStr s =>
      match float_of_str s with
      | Some x => inr x
      | None => inl (ValueError ("could not convert string to float: " ++ repr_str s))
      end
  | VFloat x => inr x
  | VInt z =>
      match float_of_Z z with
      | S754_infinity _ => inl (OverflowError "int too large to convert to float")
      | x => inr x
      end
  | VBool b => inr (float_of_Z (if b then 1 else 0))
  | _ => inl (TypeError ("float() argument must be a string or a real number, not '"
                         ++ type_name_of v ++ "'"))
  end.

End Values.

(** Truth value of [v], as [not v] and [if v] test it. *)
Definition py_truthy (v : pyval) : bool :=
  match v with
  | VNone => false
  | VBool b => b
  | VInt z => negb (z =? 0)
  | VFloat (S754_zero _) => false
  | VFloat _ => true
  | VStr s => negb (String.eqb s EmptyString)
  | VList l => match l with [] => false | _ => true end
  | VDict d => match d with [] => false | _ => true end
  | VObj _ _ => true
  end.

(** [v == n] for an integer literal [n]: numbers compare by value, and a
    boolean is the number 0 or 1. *)
Definition py_eq_int (v : pyval) (n : Z) : bool :=
  match v with
  | VInt z => z =? n
  | VBool b => (if b then 1 else 0) =? n
  | VFloat f => float_eq_Z f n
  | _ => false
  end.

(** [v[k]] for a string key [k]. *)
Definition py_getitem (v : pyval) (k : string) : result pyval :=
  match v with
  | VDict d =>
      match dict_get d k with
      | Some x => inr x
      | None => inl (KeyError k)
      end
  | VStr _ => inl (TypeError "string indices must be integers, not 'str'")
  | VList _ => inl (TypeError "list indices must be integers or slices, not str")
  | _ => inl (TypeError ("'" ++ type_name_of v ++ "' object is not subscriptable"))
  end.

(** [v[k] = x] for a string key [k]. *)
Definition py_setitem (v : pyval) (k : string) (x : pyval) : result pyval :=
  match v with
  | VDict d => inr (VDict (dict_set d k x))
  | VList _ => inl (TypeError "list indices must be integers or slices, not str")
  | _ => inl (TypeError ("'" ++ type_name_of v
                         ++ "' object does not support item assignment"))
  end.

(** [needle in v] for a string [needle]: a substring of a string, an
    element of a list, a key of a dictionary. *)
Definition py_contains (needle : string) (v : pyval) : result bool :=
  match v with
  | VStr s => inr (contains_substring needle s)
  | VList l =>
      inr (existsb (fun x => match x with
                             | VStr s => String.eqb s needle
                             | _ => false
                             end) l)
  | VDict d => inr (dict_mem d needle)
  | _ => inl (TypeError ("argument of type '" ++ type_name_of v
                         ++ "' is not iterable"))
  end.

(** The values a [for] loop over [v] visits. *)
Definition py_iter (v : pyval) : result (list pyval) :=
  match v with
  | VList l => inr l
  | VDict d => inr (map (fun kv => VStr (fst kv)) d)
  | VStr s => inr (map (fun c => VStr (char_string c)) (list_ascii_of_string s))
  | _ => inl (TypeError ("'" ++ type_name_of v ++ "' object is not iterable"))
  end.

(** [v.get(k, default)] *)
Definition py_get (v : pyval) (k : string) (default : pyval) : result pyval :=
  match v with
  | VDict d =>
      match dict_get d k with
      | Some x => inr x
      | None => inr default
      end
  | _ => inl (AttributeError (type_name_of v) "get")
  end.

(** [v.items()] *)
Definition py_items (v : pyval) : result pydict :=
  match v with
  | VDict d => inr d
  | _ => inl (AttributeError (type_name_of v) "items")
  end.

(** [v.name] for a data attribute [name]. *)
Definition py_getattr (v : pyval) (name : string) : result pyval :=
  match v with
  | VObj c attrs =>
      match dict_get attrs name with
      | Some x => inr x
      | None => inl (AttributeError c name)
      end
  | _ => inl (AttributeError (type_name_of v) name)
  end.

Fixpoint map_result {A C} (f : A -> result C) (l : list A) : result (list C) :=
  match l with
  | [] => inr []
  | a :: l' =>
      match f a with
      | inl e => inl e
      | inr c =>
          match map_result f l' with
          | inl e => inl e
          | inr cs => inr (c :: cs)
          end
      end
  end.

(** ** neohub.py: the decoders *)

Definition DEFAULT_URL : string := "https://neohub.co.uk/".
Definition USER_LOGIN_ENDPOINT : string := "hm_user_login".
Definition CACHE_VALUE_ENDPOINT : string := "hm_cache_value".
Definition DEFAULT_CACHE_VALUE_REQUEST : string :=
  "engineers,comfort,profile0,timeclock0,system,device_list,timeclock,live_info".

(** The generated [__init__] of a dataclass: every declared field, in
    declaration order, takes the keyword argument of its name, or its
    default. *)
Definition dataclass_init (fields kwargs : pydict) : pydict :=
  map (fun fd => (fst fd, match dict_get kwargs (fst fd) with
                          | Some v => v
                          | None => snd fd
                          end)) fields.

Module Device.

(** The declared fields with their defaults ([cls.__annotations__]). *)
Definition fields : pydict :=
  [ ("address", VNone); ("deviceid", VNone); ("devicename", VNone);
    ("hub_type", VNone); ("online", VNone); ("type", VNone);
    ("version", VNone); ("share_name", VNone); ("share_id", VNone);
    ("tempformat", VNone); ("timezone", VNone); ("away", VNone);
    ("holiday", VNone); ("holidayend", VNone) ].

Definition from_dict (data : pyval) : result pyval :=
  match py_items data with
  | inl e => inl e
  | inr items =>
      let known_fields := dict_filter_keys (dict_mem fields) items in
      inr (VObj "Device" (dataclass_init fields known_fields))
  end.

End Device.

Module LiveInfoDevice.

Definition fields : pydict :=
  [ ("HEAT_ON", VBool false);
    ("CURRENT_FLOOR_TEMPERATURE", VFloat float_zero);
    ("STANDBY", VBool false);
    ("MANUAL_OFF", VBool false);
    ("TIMER_ON", VBool false);
    ("WINDOW_OPEN", VBool false);
    ("AVAILABLE_MODES", VNone);
    ("WRITE_COUNT", VInt 0);
    ("FLOOR_LIMIT", VBool false);
    ("DATE", VNone);
    ("HEAT_MODE", VBool false);
    ("OFFLINE", VBool false);
    ("HOLIDAY", VBool false);
    ("MODELOCK", VBool false);
    ("DEVICE_ID", VNone);
    ("RECENT_TEMPS", VNone);
    ("COOL_ON", VBool false);
    ("RELATIVE_HUMIDITY", VInt 0);
    ("HOLD_COOL", VFloat float_zero);
    ("AWAY", VBool false);
    ("TIMECLOCK", VBool false);
    ("TEMPORARY_SET_FLAG", VBool false);
    ("PRG_TIMER", VBool false);
    ("LOCK", VBool false);
    ("MODULATION_LEVEL", VInt 0);
    ("HC_MODE", VNone);
    ("SET_TEMP", VNone);
    ("LOW_BATTERY", VBool false);
    ("COOL_TEMP", VFloat float_zero);
    ("HOLD_ON", VBool false);
    ("HOLD_OFF", VBool false);
    ("ZONE_NAME", VNone);
    ("HOLD_TIME", VNone);
    ("COOL_MODE", VBool false);
    ("HOLD_TEMP", VFloat float_zero);
    ("PREHEAT_ACTIVE", VBool false);
    ("ACTIVE_PROFILE", VInt 0);
    ("SWITCH_DELAY_LEFT", VNone);
    ("PIN_NUMBER", VNone);
    ("FAN_SPEED", VNone);
    ("ACTUAL_TEMP", VNone);
    ("TIME", VNone);
    ("ACTIVE_LEVEL", VInt 0);
    ("FAN_CONTROL", VNone);
    ("PRG_TEMP", VFloat float_zero);
    ("THERMOSTAT", VNone) ].

(** [__post_init__]: a list field left at [None] becomes the empty list. *)
Definition post_init (attrs : pydict) : pydict :=
  let attrs1 :=
    match dict_get attrs "AVAILABLE_MODES" with
    | Some VNone => dict_set attrs "AVAILABLE_MODES" (VList [])
    | _ => attrs
    end in
  match dict_get attrs1 "RECENT_TEMPS" with
  | Some VNone => dict_set attrs1 "RECENT_TEMPS" (VList [])
  | _ => attrs1
  end.

(** The constructor called on keyword arguments, [__post_init__] included. *)
Definition new (kwargs : pydict) : pyval :=
  VObj "LiveInfoDevice" (post_init (dataclass_init fields kwargs)).

(** The fields the hub sends as numbers or as numeric text. *)
Definition numeric_fields : list string :=
  [ "CURRENT_FLOOR_TEMPERATURE"; "HOLD_COOL"; "COOL_TEMP"; "HOLD_TEMP";
    "PRG_TEMP" ].

Section Decode.
Context {B : PyBuiltins}.

(** One round of the conversion loop: a string value becomes the float it
    reads as, or [0.0] when [float] raises. *)
Definition convert_field (known_fields : pydict) (field : string) : pydict :=
  match dict_get known_fields field with
  | Some (VStr s) =>
      dict_set known_fields field
        (VFloat (match float_of_str s with
                 | Some x => x
                 | None => float_zero
                 end))
  | _ => known_fields
  end.

Definition from_dict (data : pyval) : result pyval :=
  match py_items data with
  | inl e => inl e
  | inr items =>
      (* Filter out unknown fields *)
      let known_fields := dict_filter_keys (dict_mem fields) items in
      (* Convert string values to appropriate types *)
      let known_fields := fold_left convert_field numeric_fields known_fields in
      (* Ensure RECENT_TEMPS is a list *)
      let known_fields :=
        match dict_get known_fields "RECENT_TEMPS" with
        | Some (VStr s) => dict_set known_fields "RECENT_TEMPS" (VList [VStr s])
        | Some _ => known_fields
        | None => dict_set known_fields "RECENT_TEMPS" (VList [])
        end in
      (* Ensure AVAILABLE_MODES is a list *)
      let known_fields :=
        match dict_get known_fields "AVAILABLE_MODES" with
        | Some _ => known_fields
        | None => dict_set known_fields "AVAILABLE_MODES" (VList [])
        end in
      inr (new known_fields)
  end.

End Decode.

End LiveInfoDevice.

(** ** app.py: the zone classifier *)

Definition get_device_type (zone_data : pyval) : result string :=
  match py_getattr zone_data "ACTUAL_TEMP" with
  | inl e => inl e
  | inr actual_temp =>
      if match actual_temp with
         | VStr s => String.eqb s "255.255"
         | _ => false
         end
      then inr "SOCKET"
      else
        match py_getattr zone_data "ZONE_NAME" with
        | inl e => inl e
        | inr zone_name =>
            match py_contains "Socket" zone_name with
            | inl e => inl e
            | inr true => inr "SOCKET"
            | inr false => inr "THERMOSTAT"
            end
        end
  end.

Section Validity.
Context {B : PyBuiltins}.

Definition is_valid_temperature (temp_str : pyval) (device_type : string)
  : result bool :=
  if String.eqb device_type "SOCKET" then inr true
  else
    match py_float temp_str with
    | inr temp => inr (Z_le_float 0 temp && float_le_Z temp 50)
    | inl (ValueError _) => inr false
    | inl (TypeError _) => inr false
    | inl e => inl e
    end.

End Validity.

(** ** neohub.py: the client

    A method of the client reads and writes the client object, posts
    requests and prints warnings.  The world it runs in records all three:
    the object, the requests posted so far and the lines printed so far.
    What the hub answers is not the client's to decide: a [Server] maps the
    requests already posted and the new one to the decoded body of the
    answer, or to the exception the transport raises (no connection, an
    HTTP error status, a body that is not JSON). *)

Module NeoHub.

Record t : Type := {
  username : string;
  password : string;
  url : string;
  token : pyval
}.

Record Request : Type := {
  req_url : string;
  req_data : pydict
}.

Record World : Type := {
  self : t;
  sent : list Request;
  stdout : list string
}.

Definition Server := list Request -> Request -> result pyval.

(** A method: it ends with a value or an exception, and a world either
    way. *)
Definition M (A : Type) := World -> result A * World.

Definition ret {A} (a : A) : M A := fun w => (inr a, w).

Definition raise {A} (e : exn) : M A := fun w => (inl e, w).

Definition bind {A C} (m : M A) (k : A -> M C) : M C :=
  fun w =>
    match m w with
    | (inl e, w') => (inl e, w')
    | (inr a, w') => k a w'
    end.

Definition lift {A} (r : result A) : M A := fun w => (r, w).

Notation "x <- m ;; k" := (bind m (fun x => k))
  (at level 61, m at next level, right associativity).
Notation "m ;;; k" := (bind m (fun _ => k))
  (at level 61, right associativity).

Definition get_self : M t := fun w => (inr (self w), w).

Definition set_token (tok : pyval) : M unit :=
  fun w =>
    (inr tt,
     {| self := {| username := username (self w);
                   password := password (self w);
                   url := url (self w);
                   token := tok |};
        sent := sent w;
        stdout := stdout w |}).

Definition print (line : string) : M unit :=
  fun w =>
    (inr tt,
     {| self := self w; sent := sent w; stdout := stdout w ++ [line] |}).

(** [__init__]: no token yet; an absent or empty [url] selects the default
    hub. *)
Definition init (username password : string) (url : option string) : t :=
  {| username := username;
     password := password;
     url := match url with
            | Some u => if String.eqb u EmptyString then DEFAULT_URL else u
            | None => DEFAULT_URL
            end;
     token := VNone |}.

Definition NOT_LOGGED_IN : exn := Exception "Not logged in. Call login() first".

Section Client.
Context {B : PyBuiltins}.
Variable server : Server.

Definition _form_post_request (endpoint : string) (params : pydict) : M pyval :=
  fun w =>
    let rq := {| req_url := url (self w) ++ endpoint; req_data := params |} in
    (server (sent w) rq,
     {| self := self w; sent := sent w ++ [rq]; stdout := stdout w |}).

Definition login : M pyval :=
  me <- get_self ;;
  let params := [ ("USERNAME", VStr (username me));
                  ("PASSWORD", VStr (password me)) ] in
  response <- _form_post_request USER_LOGIN_ENDPOINT params ;;
  status <- lift (py_getitem response "STATUS") ;;
  if negb (py_eq_int status 1) then
    raise (Exception ("Login failed with status: " ++ py_str status))
  else
    tok <- lift (py_getitem response "TOKEN") ;;
    set_token tok ;;;
    devices <- lift (py_getitem response "devices") ;;
    items <- lift (py_iter devices) ;;
    decoded <- lift (map_result Device.from_dict items) ;;
    ret (VList decoded).

(** The loop of [get_data]: a record that decodes joins [devices], one that
    does not is reported on the standard output and skipped. *)
Fixpoint decode_devices (records devices : list pyval) : M (list pyval) :=
  match records with
  | [] => ret devices
  | device_data :: rest =>
      match LiveInfoDevice.from_dict device_data with
      | inr device => decode_devices rest (devices ++ [device])
      | inl e =>
          print ("Warning: Failed to parse device data: " ++ exn_str e) ;;;
          decode_devices rest devices
      end
  end.

Definition get_data (device_id : pyval) : M pyval :=
  me <- get_self ;;
  if negb (py_truthy (token me)) then raise NOT_LOGGED_IN
  else
    let params := [ ("cache_value", VStr DEFAULT_CACHE_VALUE_REQUEST);
                    ("device_id", device_id);
                    ("token", token me) ] in
    response <- _form_post_request CACHE_VALUE_ENDPOINT params ;;
    status <- lift (py_getitem response "STATUS") ;;
    if negb (py_eq_int status 1 || py_eq_int status 201) then
      raise (Exception ("Unexpected status from getData: " ++ py_str status))
    else
      (* Convert live info devices to proper objects *)
      has_cache <- lift (py_contains "CACHE_VALUE" response) ;;
      has_live <- (if has_cache
                   then cache <- lift (py_getitem response "CACHE_VALUE") ;;
                        lift (py_contains "live_info" cache)
                   else ret false) ;;
      if has_live then
        cache <- lift (py_getitem response "CACHE_VALUE") ;;
        live <- lift (py_getitem cache "live_info") ;;
        listed <- lift (py_get live "devices" (VList [])) ;;
        records <- lift (py_iter listed) ;;
        devices <- decode_devices records [] ;;
        live' <- lift (py_setitem live "devices" (VList devices)) ;;
        cache' <- lift (py_setitem cache "live_info" live') ;;
        lift (py_setitem response "CACHE_VALUE" cache')
      else ret response.

Definition set_temperature (device_id zone_name temperature : pyval) : M pyval :=
  me <- get_self ;;
  if negb (py_truthy (token me)) then raise NOT_LOGGED_IN
  else
    let params := [ ("device_id", device_id);
                    ("token", token me);
                    ("zone", zone_name);
                    ("temperature", VStr (py_str temperature)) ] in
    response <- _form_post_request "hm_set_temp" params ;;
    status <- lift (py_getitem response "STATUS") ;;
    if negb (py_eq_int status 1) then
      error <- lift (py_get response "ERROR" (VStr "Unknown error")) ;;
      raise (Exception ("Failed to set temperature: " ++ py_str error))
    else ret response.

Definition set_mode (device_id zone_name : pyval) (mode : string) : M pyval :=
  me <- get_self ;;
  if negb (py_truthy (token me)) then raise NOT_LOGGED_IN
  else
    let params := [ ("device_id", device_id);
                    ("token", token me);
                    ("zone", zone_name);
                    ("mode", VStr (str_upper mode)) ] in
    response <- _form_post_request "hm_set_mode" params ;;
    status <- lift (py_getitem response "STATUS") ;;
    if negb (py_eq_int status 1) then
      error <- lift (py_get response "ERROR" (VStr "Unknown error")) ;;
      raise (Exception ("Failed to set mode: " ++ py_str error))
    else ret response.

Definition set_away_mode (device_id : pyval) (enabled : bool) : M pyval :=
  me <- get_self ;;
  if negb (py_truthy (token me)) then raise NOT_LOGGED_IN
  else
    let params := [ ("device_id", device_id);
                    ("token", token me);
                    ("away", VStr (if enabled then "1" else "0")) ] in
    response <- _form_post_request "hm_set_away" params ;;
    status <- lift (py_getitem response "STATUS") ;;
    if negb (py_eq_int status 1) then
      error <- lift (py_get response "ERROR" (VStr "Unknown error")) ;;
      raise (Exception ("Failed to set away mode: " ++ py_str error))
    else ret response.

Definition get_history (device_id zone_name : pyval) : M pyval :=
  me <- get_self ;;
  if negb (py_truthy (token me)) then raise NOT_LOGGED_IN
  else
    let params := [ ("device_id", device_id);
                    ("token", token me);
                    ("zone", zone_name) ] in
    response <- _form_post_request "hm_get_history" params ;;
    status <- lift (py_getitem response "STATUS") ;;
    if negb (py_eq_int status 1) then
      error <- lift (py_get response "ERROR" (VStr "Unknown error")) ;;
      raise (Exception ("Failed to get history: " ++ py_str error))
    else ret response.

End Client.

End NeoHub.

(** ** Vocabulary of the statements *)

(** What [__post_init__] leaves in a list field. *)
Definition none_to_empty (v : pyval) : pyval :=
  match v with
  | VNone => VList []
  | _ => v
  end.

(** A hub that answers every request with the same decoded body. *)
Definition answers (body : pyval) : NeoHub.Server := fun _ _ => inr body.

(** The world after one more request has been posted. *)
Definition posted (w : NeoHub.World) (endpoint : string) (params : pydict)
  : NeoHub.World :=
  {| NeoHub.self := NeoHub.self w;
     NeoHub.sent := NeoHub.sent w
                    ++ [{| NeoHub.req_url := NeoHub.url (NeoHub.self w) ++ endpoint;
                           NeoHub.req_data := params |}];
     NeoHub.stdout := NeoHub.stdout w |}.

(** The world after the client has stored a token. *)
Definition with_token (w : NeoHub.World) (tok : pyval) : NeoHub.World :=
  {| NeoHub.self := {| NeoHub.username := NeoHub.username (NeoHub.self w);
                       NeoHub.password := NeoHub.password (NeoHub.self w);
                       NeoHub.url := NeoHub.url (NeoHub.self w);
                       NeoHub.token := tok |};
     NeoHub.sent := NeoHub.sent w;
     NeoHub.stdout := NeoHub.stdout w |}.

(** The world after more lines have been printed. *)
Definition printed (w : NeoHub.World) (lines : list string) : NeoHub.World :=
  {| NeoHub.self := NeoHub.self w;
     NeoHub.sent := NeoHub.sent w;
     NeoHub.stdout := NeoHub.stdout w ++ lines |}.

(** A client that has just been constructed, in a world where nothing has
    been posted or printed. *)
Definition fresh (username password : string) (url : option string)
  : NeoHub.World :=
  {| NeoHub.self := NeoHub.init username password url;
     NeoHub.sent := [];
     NeoHub.stdout := [] |}.

(** The test every authenticated method starts with passes. *)
Definition logged_in (w : NeoHub.World) : Prop :=
  py_truthy (NeoHub.token (NeoHub.self w)) = true.

(** The parameters of the login form. *)
Definition login_params (w : NeoHub.World) : pydict :=
  [ ("USERNAME", VStr (NeoHub.username (NeoHub.self w)));
    ("PASSWORD", VStr (NeoHub.password (NeoHub.self w))) ].

(** The parameters of the data request. *)
Definition get_data_params (w : NeoHub.World) (device_id : pyval) : pydict :=
  [ ("cache_value", VStr DEFAULT_CACHE_VALUE_REQUEST);
    ("device_id", device_id);
    ("token", NeoHub.token (NeoHub.self w)) ].

(** What [Device.from_dict] builds from a dictionary. *)
Definition decoded_device (items : pydict) : pyval :=
  VObj "Device"
    (dataclass_init Device.fields
       (dict_filter_keys (dict_mem Device.fields) items)).

(** The body of a data answer in the shape the hub documents: under
    [CACHE_VALUE], under [live_info], a list [devices]; each level may be
    missing. *)
Definition live_info_shape (resp : pydict) : Prop :=
  match dict_get resp "CACHE_VALUE" with
  | None => True
  | Some (VDict cache) =>
      match dict_get cache "live_info" with
      | None => True
      | Some (VDict live) =>
          match dict_get live "devices" with
          | None => True
          | Some (VList _) => True
          | Some _ => False
          end
      | Some _ => False
      end
  | Some _ => False
  end.

Section StatementVocabulary.
Context {B : PyBuiltins}.

(** What the conversion loop leaves under a key. *)
Definition converted (v : option pyval) : option pyval :=
  match v with
  | Some (VStr s) =>
      Some (VFloat (match float_of_str s with
                    | Some x => x
                    | None => float_zero
                    end))
  | _ => v
  end.

(** The keyword arguments [from_dict] passes to the constructor. *)
Definition decoded_kwargs (items : pydict) : pydict :=
  let known_fields := dict_filter_keys (dict_mem LiveInfoDevice.fields) items in
  let known_fields :=
    fold_left LiveInfoDevice.convert_field LiveInfoDevice.numeric_fields
      known_fields in
  let known_fields :=
    match dict_get known_fields "RECENT_TEMPS" with
    | Some (VStr s) => dict_set known_fields "RECENT_TEMPS" (VList [VStr s])
    | Some _ => known_fields
    | None => dict_set known_fields "RECENT_TEMPS" (VList [])
    end in
  match dict_get known_fields "AVAILABLE_MODES" with
  | Some _ => known_fields
  | None => dict_set known_fields "AVAILABLE_MODES" (VList [])
  end.

(** Every authenticated method, whatever its arguments and whatever the
    hub would answer, raises the not-logged-in exception and leaves the
    world as it is: nothing is posted. *)
Definition refuses_all (w : NeoHub.World) : Prop :=
  forall (server : NeoHub.Server) (device_id zone_name temperature : pyval)
         (mode : string) (enabled : bool),
    NeoHub.get_data server device_id w = (inl NeoHub.NOT_LOGGED_IN, w) /\
    NeoHub.set_temperature server device_id zone_name temperature w
      = (inl NeoHub.NOT_LOGGED_IN, w) /\
    NeoHub.set_mode server device_id zone_name mode w
      = (inl NeoHub.NOT_LOGGED_IN, w) /\
    NeoHub.set_away_mode server device_id enabled w
      = (inl NeoHub.NOT_LOGGED_IN, w) /\
    NeoHub.get_history server device_id zone_name w
      = (inl NeoHub.NOT_LOGGED_IN, w).

(** The zones of a batch of records: those that decode, in order. *)
Definition decoded_zones (records : list pyval) : list pyval :=
  flat_map (fun r => match LiveInfoDevice.from_dict r with
                     | inr zone => [zone]
                     | inl _ => []
                     end) records.

(** The warnings of a batch of records: one line for each record that does
    not decode, in order. *)
Definition decode_warnings (records : list pyval) : list string :=
  flat_map (fun r => match LiveInfoDevice.from_dict r with
                     | inr _ => []
                     | inl e => ["Warning: Failed to parse device data: "
                                 ++ exn_str e]
                     end) records.

(** The message of a failed command: the server's [ERROR] when the body has
    one, a fixed text otherwise. *)
Definition error_text (resp : pydict) : string :=
  py_str (match dict_get resp "ERROR" with
          | Some v => v
          | None => VStr "Unknown error"
          end).

(** The parameters of the four command forms. *)
Definition set_temperature_params (w : NeoHub.World)
    (device_id zone_name temperature : pyval) : pydict :=
  [ ("device_id", device_id);
    ("token", NeoHub.token (NeoHub.self w));
    ("zone", zone_name);
    ("temperature", VStr (py_str temperature)) ].

Definition set_mode_params (w : NeoHub.World)
    (device_id zone_name : pyval) (mode : string) : pydict :=
  [ ("device_id", device_id);
    ("token", NeoHub.token (NeoHub.self w));
    ("zone", zone_name);
    ("mode", VStr (str_upper mode)) ].

Definition set_away_mode_params (w : NeoHub.World)
    (device_id : pyval) (enabled : bool) : pydict :=
  [ ("device_id", device_id);
    ("token", NeoHub.token (NeoHub.self w));
    ("away", VStr (if enabled then "1" else "0")) ].

Definition get_history_params (w : NeoHub.World)
    (device_id zone_name : pyval) : pydict :=
  [ ("device_id", device_id);
    ("token", NeoHub.token (NeoHub.self w));
    ("zone", zone_name) ].

End StatementVocabulary.

(** *** Sample inputs *)

(** The binary64 number nearest to 255.255, and 21.0. *)
Definition float_255_255 : spec_float := S754_finite false 8980986897534812 (-45).
Definition float_21 : spec_float := float_of_Z 21.

(** A client that holds the token [abc]. *)
Definition logged_in_world : NeoHub.World :=
  with_token (fresh "user" "secret" None) (VStr "abc").

(** One record that decodes and one that does not, under status 201. *)
Definition mixed_records : list pyval :=
  [ VDict [("ZONE_NAME", VStr "Hall"); ("ACTUAL_TEMP", VStr "21.5")];
    VStr "garbage" ].

Definition mixed_live : pydict := [("devices", VList mixed_records)].
Definition mixed_cache : pydict := [("live_info", VDict mixed_live)].
Definition mixed_body : pydict :=
  [("STATUS", VInt 201); ("CACHE_VALUE", VDict mixed_cache)].

(** * Properties *)

(** ** The ASCII builtins on samples

    Each value below is what the interpreter answers on the same input. *)

Example float_of_ascii_samples :
  float_of_ascii "21.5" = Some (S754_finite false 6051711999279104 (-48)) /\
  float_of_ascii " 1_0.5e1 " = Some (S754_finite false 7388718138654720 (-46)) /\
  float_of_ascii "-0" = Some (S754_zero true) /\
  float_of_ascii "1e400" = Some (S754_infinity false) /\
  float_of_ascii "NaN" = Some S754_nan /\
  float_of_ascii "21,5" = None /\
  float_of_ascii "1__0" = None /\
  float_of_ascii EmptyString = None.
Proof. repeat split; vm_compute; reflexivity. Qed.

Example float_repr_samples :
  float_repr float_21 = "21.0" /\
  float_repr float_255_255 = "255.255" /\
  float_repr (S754_finite false 7205759403792794 (-56)) = "0.1" /\
  float_repr (float_of_Z (10 ^ 16)) = "1e+16" /\
  float_repr (S754_finite false 1 (-1074)) = "5e-324" /\
  float_repr (S754_zero true) = "-0.0".
Proof. repeat split; vm_compute; reflexivity. Qed.

Example str_repr_samples :
  str_repr "STATUS" = "'STATUS'" /\
  str_repr "it's" = String double_quote ("it's" ++ char_string double_quote) /\
  ascii_upper "heat" = "HEAT".
Proof. repeat split; vm_compute; reflexivity. Qed.

(** ** Dictionaries *)

Lemma dict_get_set (d : pydict) (k k' : string) (v : pyval) :
  dict_get (dict_set d k v) k' =
  if String.eqb k k' then Some v else dict_get d k'.
Proof.
  induction d as [|[k0 v0] d IH]; simpl.
  - reflexivity.
  - destruct (String.eqb k0 k) eqn:E0; simpl.
    + apply String.eqb_eq in E0; subst k0.
      destruct (String.eqb k k'); reflexivity.
    + rewrite IH.
      destruct (String.eqb k0 k') eqn:E1; [|reflexivity].
      apply String.eqb_eq in E1; subst k0.
      rewrite String.eqb_sym, E0. reflexivity.
Qed.

Lemma dict_get_filter_keys (keep : string -> bool) (d : pydict) (k : string) :
  dict_get (dict_filter_keys keep d) k =
  if keep k then dict_get d k else None.
Proof.
  unfold dict_filter_keys.
  induction d as [|[k0 v0] d IH]; simpl.
  - destruct (keep k); reflexivity.
  - destruct (keep k0) eqn:K0; simpl.
    + destruct (String.eqb k0 k) eqn:E.
      * apply String.eqb_eq in E; subst k0. rewrite K0. reflexivity.
      * exact IH.
    + destruct (String.eqb k0 k) eqn:E.
      * apply String.eqb_eq in E; subst k0. rewrite IH, K0. reflexivity.
      * exact IH.
Qed.

Lemma dict_get_dataclass_init (fields kwargs : pydict) (k : string) :
  dict_get (dataclass_init fields kwargs) k =
  match dict_get fields k with
  | Some default => Some (match dict_get kwargs k with
                          | Some v => v
                          | None => default
                          end)
  | None => None
  end.
Proof.
  unfold dataclass_init.
  induction fields as [|[k0 v0] fields IH]; simpl.
  - reflexivity.
  - destruct (String.eqb k0 k) eqn:E.
    + apply String.eqb_eq in E; subst k0. reflexivity.
    + exact IH.
Qed.

(** ** The zone decoder *)

Section DecodeFacts.
Context {B : PyBuiltins}.

Lemma dict_get_convert_field (d : pydict) (field k : string) :
  dict_get (LiveInfoDevice.convert_field d field) k =
  if String.eqb field k then converted (dict_get d k) else dict_get d k.
Proof.
  unfold LiveInfoDevice.convert_field, converted.
  destruct (String.eqb field k) eqn:E.
  - apply String.eqb_eq in E; subst k.
    destruct (dict_get d field) as [[]|] eqn:G; try (rewrite G; reflexivity).
    rewrite dict_get_set, String.eqb_refl. reflexivity.
  - destruct (dict_get d field) as [[]|]; try reflexivity.
    rewrite dict_get_set, E. reflexivity.
Qed.

Lemma from_dict_dict (items : pydict) :
  LiveInfoDevice.from_dict (VDict items) =
  inr (LiveInfoDevice.new (decoded_kwargs items)).
Proof. reflexivity. Qed.

Lemma from_dict_not_dict (data : pyval) :
  (forall items, data <> VDict items) ->
  LiveInfoDevice.from_dict data =
  inl (AttributeError (type_name_of data) "items").
Proof.
  intros H. destruct data; try reflexivity.
  exfalso. eapply H. reflexivity.
Qed.

End DecodeFacts.

Section ZoneAttributes.
Context {B : PyBuiltins}.

Lemma dict_get_none_to_empty (attrs : pydict) (field k : string) :
  dict_get (match dict_get attrs field with
            | Some VNone => dict_set attrs field (VList [])
            | _ => attrs
            end) k =
  if String.eqb field k then option_map none_to_empty (dict_get attrs k)
  else dict_get attrs k.
Proof.
  destruct (String.eqb field k) eqn:E.
  - apply String.eqb_eq in E; subst k.
    destruct (dict_get attrs field) as [[]|] eqn:G; rewrite ?G; try reflexivity.
    rewrite dict_get_set, String.eqb_refl. reflexivity.
  - destruct (dict_get attrs field) as [[]|]; try reflexivity.
    rewrite dict_get_set, E. reflexivity.
Qed.

Lemma dict_get_post_init (attrs : pydict) (k : string) :
  dict_get (LiveInfoDevice.post_init attrs) k =
  if String.eqb "AVAILABLE_MODES" k || String.eqb "RECENT_TEMPS" k
  then option_map none_to_empty (dict_get attrs k)
  else dict_get attrs k.
Proof.
  unfold LiveInfoDevice.post_init.
  rewrite dict_get_none_to_empty, dict_get_none_to_empty.
  destruct (String.eqb "AVAILABLE_MODES" k) eqn:EA;
    destruct (String.eqb "RECENT_TEMPS" k) eqn:ER; simpl; try reflexivity.
  apply String.eqb_eq in EA; apply String.eqb_eq in ER; subst k; discriminate.
Qed.

(** Reading a declared field of a freshly built zone. *)
Lemma getattr_new (kwargs : pydict) (k : string) (default : pyval) :
  dict_get LiveInfoDevice.fields k = Some default ->
  py_getattr (LiveInfoDevice.new kwargs) k =
  inr (let v := match dict_get kwargs k with
                | Some v => v
                | None => default
                end in
       if String.eqb "AVAILABLE_MODES" k || String.eqb "RECENT_TEMPS" k
       then none_to_empty v else v).
Proof.
  intros Hk. unfold LiveInfoDevice.new, py_getattr.
  rewrite dict_get_post_init, dict_get_dataclass_init, Hk.
  destruct (String.eqb "AVAILABLE_MODES" k || String.eqb "RECENT_TEMPS" k);
    reflexivity.
Qed.

Lemma numeric_field_declared (k : string) :
  existsb (String.eqb k) LiveInfoDevice.numeric_fields = true ->
  dict_mem LiveInfoDevice.fields k = true.
Proof.
  unfold LiveInfoDevice.numeric_fields. cbv [existsb].
  repeat match goal with
         | |- context [String.eqb k ?a] =>
             destruct (String.eqb_spec k a); [subst k; reflexivity|]
         end.
  discriminate.
Qed.

Lemma dict_get_converted_fields (d : pydict) (k : string) :
  dict_get (fold_left LiveInfoDevice.convert_field
              LiveInfoDevice.numeric_fields d) k =
  if existsb (String.eqb k) LiveInfoDevice.numeric_fields
  then converted (dict_get d k) else dict_get d k.
Proof.
  unfold LiveInfoDevice.numeric_fields. cbv [fold_left existsb].
  rewrite !dict_get_convert_field, !(String.eqb_sym k).
  repeat match goal with
         | |- context [String.eqb ?a k] =>
             destruct (String.eqb_spec a k); [subst k; reflexivity|]
         end.
  reflexivity.
Qed.

Lemma dict_get_recent_temps_step (d : pydict) (k : string) :
  dict_get (match dict_get d "RECENT_TEMPS" with
            | Some (VStr s) => dict_set d "RECENT_TEMPS" (VList [VStr s])
            | Some _ => d
            | None => dict_set d "RECENT_TEMPS" (VList [])
            end) k =
  if String.eqb "RECENT_TEMPS" k then
    match dict_get d k with
    | Some (VStr s) => Some (VList [VStr s])
    | Some v => Some v
    | None => Some (VList [])
    end
  else dict_get d k.
Proof.
  destruct (String.eqb "RECENT_TEMPS" k) eqn:E.
  - apply String.eqb_eq in E; subst k.
    destruct (dict_get d "RECENT_TEMPS") as [[]|] eqn:G; rewrite ?G;
      try reflexivity; rewrite dict_get_set, String.eqb_refl; reflexivity.
  - destruct (dict_get d "RECENT_TEMPS") as [[]|]; try reflexivity;
      rewrite dict_get_set, E; reflexivity.
Qed.

Lemma dict_get_available_modes_step (d : pydict) (k : string) :
  dict_get (match dict_get d "AVAILABLE_MODES" with
            | Some _ => d
            | None => dict_set d "AVAILABLE_MODES" (VList [])
            end) k =
  if String.eqb "AVAILABLE_MODES" k then
    match dict_get d k with
    | Some v => Some v
    | None => Some (VList [])
    end
  else dict_get d k.
Proof.
  destruct (String.eqb "AVAILABLE_MODES" k) eqn:E.
  - apply String.eqb_eq in E; subst k.
    destruct (dict_get d "AVAILABLE_MODES") eqn:G; rewrite ?G;
      try reflexivity; rewrite dict_get_set, String.eqb_refl; reflexivity.
  - destruct (dict_get d "AVAILABLE_MODES"); try reflexivity;
      rewrite dict_get_set, E; reflexivity.
Qed.

(** The keyword arguments under each key. *)
Lemma dict_get_decoded_kwargs (items : pydict) (k : string) :
  dict_get (decoded_kwargs items) k =
  if String.eqb "AVAILABLE_MODES" k then
    match dict_get items k with
    | Some v => Some v
    | None => Some (VList [])
    end
  else if String.eqb "RECENT_TEMPS" k then
    match dict_get items k with
    | Some (VStr s) => Some (VList [VStr s])
    | Some v => Some v
    | None => Some (VList [])
    end
  else if existsb (String.eqb k) LiveInfoDevice.numeric_fields then
    converted (dict_get items k)
  else if dict_mem LiveInfoDevice.fields k then dict_get items k
  else None.
Proof.
  unfold decoded_kwargs.
  rewrite dict_get_available_modes_step, dict_get_recent_temps_step,
    dict_get_converted_fields, dict_get_filter_keys.
  destruct (String.eqb_spec "AVAILABLE_MODES" k); [subst k; reflexivity|].
  destruct (String.eqb_spec "RECENT_TEMPS" k); [subst k; reflexivity|].
  destruct (existsb (String.eqb k) LiveInfoDevice.numeric_fields) eqn:EN;
    [|reflexivity].
  rewrite (numeric_field_declared k EN). reflexivity.
Qed.

End ZoneAttributes.

Section ZoneClaims.
Context {B : PyBuiltins}.

(** Every dictionary decodes; nothing else does. *)
Lemma from_dict_succeeds_iff_dict (data : pyval) :
  (exists zone, LiveInfoDevice.from_dict data = inr zone) <->
  (exists items, data = VDict items).
Proof.
  split.
  - intros [zone H]. destruct data; try discriminate. eexists; reflexivity.
  - intros [items ->]. eexists. apply from_dict_dict.
Qed.

(** [RECENT_TEMPS] after decoding: absent gives the empty list, a bare
    string a one-element list; any other value is kept, except [None],
    which [__post_init__] turns into the empty list. *)
Lemma recent_temps_normalized (items : pydict) :
  py_getattr (LiveInfoDevice.new (decoded_kwargs items)) "RECENT_TEMPS" =
  inr (match dict_get items "RECENT_TEMPS" with
       | None => VList []
       | Some (VStr s) => VList [VStr s]
       | Some VNone => VList []
       | Some v => v
       end).
Proof.
  rewrite (getattr_new _ _ VNone) by reflexivity.
  rewrite dict_get_decoded_kwargs.
  destruct (dict_get items "RECENT_TEMPS") as [[]|]; reflexivity.
Qed.

(** [AVAILABLE_MODES] after decoding: absent (or [None]) gives the empty
    list; every other value is kept as it is. *)
Lemma available_modes_decoded (items : pydict) :
  py_getattr (LiveInfoDevice.new (decoded_kwargs items)) "AVAILABLE_MODES" =
  inr (match dict_get items "AVAILABLE_MODES" with
       | None => VList []
       | Some VNone => VList []
       | Some v => v
       end).
Proof.
  rewrite (getattr_new _ _ VNone) by reflexivity.
  rewrite dict_get_decoded_kwargs.
  destruct (dict_get items "AVAILABLE_MODES") as [[]|]; reflexivity.
Qed.

(** C1 (where the code departs from it): a zone record whose
    [AVAILABLE_MODES] is a bare string decodes to a zone whose
    [AVAILABLE_MODES] is that same string, not a one-element list; the
    string is wrapped for [RECENT_TEMPS] only. *)
Theorem available_modes_bare_string_kept (items : pydict) (s : string) :
  dict_get items "AVAILABLE_MODES" = Some (VStr s) ->
  bind_result (LiveInfoDevice.from_dict (VDict items))
    (fun zone => py_getattr zone "AVAILABLE_MODES") = inr (VStr s).
Proof.
  intros H. rewrite from_dict_dict. cbv beta iota delta [bind_result].
  rewrite available_modes_decoded, H. reflexivity.
Qed.

(** C2: decoding a zone record never fails, and each of the five numeric
    fields, CURRENT_FLOOR_TEMPERATURE, HOLD_COOL, COOL_TEMP, HOLD_TEMP and
    PRG_TEMP, holds the float its string reads as, [0.0] for a string that
    does not read as a float, [0.0] when the field is absent. *)
Theorem from_dict_numeric_fields (items : pydict) :
  exists zone,
    LiveInfoDevice.from_dict (VDict items) = inr zone /\
    Forall (fun field =>
              py_getattr zone field =
              inr (match dict_get items field with
                   | Some (VStr s) =>
                       match float_of_str s with
                       | Some x => VFloat x
                       | None => VFloat float_zero
                       end
                   | Some v => v
                   | None => VFloat float_zero
                   end))
      [ "CURRENT_FLOOR_TEMPERATURE"; "HOLD_COOL"; "COOL_TEMP"; "HOLD_TEMP";
        "PRG_TEMP" ].
Proof.
  eexists. split; [apply from_dict_dict|].
  repeat constructor;
    rewrite (getattr_new _ _ (VFloat float_zero)) by reflexivity;
    rewrite dict_get_decoded_kwargs;
    match goal with
    | |- context [dict_get items ?k] =>
        destruct (dict_get items k) as [[| | | |s| | |]|];
        try reflexivity; cbv [converted]; destruct (float_of_str s); reflexivity
    end.
Qed.

(** What [get_device_type] answers on a decoded zone, from the record. *)
Lemma get_device_type_decoded (items : pydict) :
  get_device_type (LiveInfoDevice.new (decoded_kwargs items)) =
  let actual_temp := match dict_get items "ACTUAL_TEMP" with
                     | Some v => v
                     | None => VNone
                     end in
  let zone_name := match dict_get items "ZONE_NAME" with
                   | Some v => v
                   | None => VNone
                   end in
  if match actual_temp with
     | VStr s => String.eqb s "255.255"
     | _ => false
     end
  then inr "SOCKET"
  else match py_contains "Socket" zone_name with
       | inl e => inl e
       | inr true => inr "SOCKET"
       | inr false => inr "THERMOSTAT"
       end.
Proof.
  unfold get_device_type.
  rewrite (getattr_new _ "ACTUAL_TEMP" VNone) by reflexivity.
  rewrite (getattr_new _ "ZONE_NAME" VNone) by reflexivity.
  rewrite !dict_get_decoded_kwargs. reflexivity.
Qed.

(** C4 (where the code departs from it): on a zone decoded from a record
    without [ZONE_NAME] whose [ACTUAL_TEMP] is not the text [255.255],
    [get_device_type] raises a [TypeError] and returns no classification. *)
Theorem get_device_type_absent_name (items : pydict) :
  dict_get items "ZONE_NAME" = None ->
  dict_get items "ACTUAL_TEMP" <> Some (VStr "255.255") ->
  bind_result (LiveInfoDevice.from_dict (VDict items)) get_device_type =
  inl (TypeError "argument of type 'NoneType' is not iterable").
Proof.
  intros Hname Hactual. rewrite from_dict_dict. cbv beta iota delta [bind_result].
  rewrite get_device_type_decoded, Hname. cbv zeta.
  destruct (dict_get items "ACTUAL_TEMP") as [[| | | |s| | |]|]; try reflexivity.
  destruct (String.eqb_spec s "255.255"); [subst s; congruence | reflexivity].
Qed.

(** The classification of a zone whose name is a string. *)
Lemma get_device_type_named (items : pydict) (name : string) :
  dict_get items "ZONE_NAME" = Some (VStr name) ->
  bind_result (LiveInfoDevice.from_dict (VDict items)) get_device_type =
  inr (if match dict_get items "ACTUAL_TEMP" with
          | Some (VStr s) => String.eqb s "255.255"
          | _ => false
          end || contains_substring "Socket" name
       then "SOCKET" else "THERMOSTAT").
Proof.
  intros Hname. rewrite from_dict_dict. cbv beta iota delta [bind_result].
  rewrite get_device_type_decoded, Hname. cbv zeta.
  destruct (dict_get items "ACTUAL_TEMP") as [[| | | |s| | |]|]; simpl;
    try (destruct (contains_substring "Socket" name); reflexivity).
  destruct (String.eqb s "255.255"); simpl; [reflexivity|].
  destruct (contains_substring "Socket" name); reflexivity.
Qed.

(** C10: the sentinel test looks at strings only.  A zone whose
    [ACTUAL_TEMP] is a float, the number 255.255 included, and whose name
    does not contain [Socket] is a thermostat. *)
Theorem get_device_type_numeric_sentinel
    (zone_data zone_name : pyval) (x : spec_float) :
  py_getattr zone_data "ACTUAL_TEMP" = inr (VFloat x) ->
  py_getattr zone_data "ZONE_NAME" = inr zone_name ->
  py_contains "Socket" zone_name = inr false ->
  get_device_type zone_data = inr "THERMOSTAT".
Proof.
  intros Hactual Hname Hin. unfold get_device_type.
  rewrite Hactual, Hname, Hin. reflexivity.
Qed.

(** The validity of a text reading, for a socket and for a thermostat. *)
Lemma is_valid_temperature_text (text : string) :
  is_valid_temperature (VStr text) "SOCKET" = inr true /\
  exists valid,
    is_valid_temperature (VStr text) "THERMOSTAT" = inr valid /\
    (valid = true <->
     exists x, float_of_str text = Some x /\
               Z_le_float 0 x = true /\ float_le_Z x 50 = true).
Proof.
  split; [reflexivity|].
  unfold is_valid_temperature, py_float.
  change (String.eqb "THERMOSTAT" "SOCKET") with false. cbv iota.
  destruct (float_of_str text) as [x|] eqn:E.
  - eexists. split; [reflexivity|]. split.
    + intros H. apply andb_true_iff in H. exists x. tauto.
    + intros [y [Hy [H0 H50]]]. injection Hy as <-. rewrite H0, H50. reflexivity.
  - exists false. split; [reflexivity|]. split; [discriminate|].
    intros [y [Hy _]]. discriminate.
Qed.

End ZoneClaims.

(** C3: whatever the builtins, every text reading of a socket is valid, and
    a text reading of a thermostat is valid exactly when the text reads as
    a float between 0 and 50, bounds included; it is invalid when the text
    does not read as a float or the float is out of range.  With the ASCII
    builtins the text [255.255] is valid for a socket and invalid for a
    thermostat.  The function maps its two arguments to a boolean and
    touches nothing else. *)
Theorem is_valid_temperature_spec :
  (forall (B : PyBuiltins) (text : string),
     is_valid_temperature (VStr text) "SOCKET" = inr true /\
     exists valid,
       is_valid_temperature (VStr text) "THERMOSTAT" = inr valid /\
       (valid = true <->
        exists x, float_of_str text = Some x /\
                  Z_le_float 0 x = true /\ float_le_Z x 50 = true)) /\
  @is_valid_temperature ascii_builtins (VStr "255.255") "SOCKET" = inr true /\
  @is_valid_temperature ascii_builtins (VStr "255.255") "THERMOSTAT" = inr false.
Proof.
  split; [intros B text; apply is_valid_temperature_text|].
  split; vm_compute; reflexivity.
Qed.

(** ** The client *)

Section ClientFacts.
Context {B : PyBuiltins}.

Lemma map_result_from_dict (ds : list pydict) :
  map_result Device.from_dict (map VDict ds) = inr (map decoded_device ds).
Proof.
  induction ds as [|d ds IH]; simpl.
  - reflexivity.
  - rewrite IH. reflexivity.
Qed.

(** The test on the token, method by method. *)
Lemma get_data_requires_token server device_id w :
  py_truthy (NeoHub.token (NeoHub.self w)) = false ->
  NeoHub.get_data server device_id w = (inl NeoHub.NOT_LOGGED_IN, w).
Proof.
  intros H. unfold NeoHub.get_data, NeoHub.bind, NeoHub.get_self.
  rewrite H. reflexivity.
Qed.

Lemma set_temperature_requires_token server device_id zone_name temperature w :
  py_truthy (NeoHub.token (NeoHub.self w)) = false ->
  NeoHub.set_temperature server device_id zone_name temperature w
  = (inl NeoHub.NOT_LOGGED_IN, w).
Proof.
  intros H. unfold NeoHub.set_temperature, NeoHub.bind, NeoHub.get_self.
  rewrite H. reflexivity.
Qed.

Lemma set_mode_requires_token server device_id zone_name mode w :
  py_truthy (NeoHub.token (NeoHub.self w)) = false ->
  NeoHub.set_mode server device_id zone_name mode w
  = (inl NeoHub.NOT_LOGGED_IN, w).
Proof.
  intros H. unfold NeoHub.set_mode, NeoHub.bind, NeoHub.get_self.
  rewrite H. reflexivity.
Qed.

Lemma set_away_mode_requires_token server device_id enabled w :
  py_truthy (NeoHub.token (NeoHub.self w)) = false ->
  NeoHub.set_away_mode server device_id enabled w
  = (inl NeoHub.NOT_LOGGED_IN, w).
Proof.
  intros H. unfold NeoHub.set_away_mode, NeoHub.bind, NeoHub.get_self.
  rewrite H. reflexivity.
Qed.

Lemma get_history_requires_token server device_id zone_name w :
  py_truthy (NeoHub.token (NeoHub.self w)) = false ->
  NeoHub.get_history server device_id zone_name w
  = (inl NeoHub.NOT_LOGGED_IN, w).
Proof.
  intros H. unfold NeoHub.get_history, NeoHub.bind, NeoHub.get_self.
  rewrite H. reflexivity.
Qed.

Lemma falsy_token_refuses_all w :
  py_truthy (NeoHub.token (NeoHub.self w)) = false -> refuses_all w.
Proof.
  intros H server device_id zone_name temperature mode enabled.
  repeat split.
  - apply get_data_requires_token, H.
  - apply set_temperature_requires_token, H.
  - apply set_mode_requires_token, H.
  - apply set_away_mode_requires_token, H.
  - apply get_history_requires_token, H.
Qed.

(** C6: while the token is [None], the empty string or any other false
    value, each of the five authenticated methods raises the not-logged-in
    exception and leaves the world untouched, the list of posted requests
    included. *)
Theorem authenticated_methods_require_token
    (server : NeoHub.Server) (w : NeoHub.World)
    (device_id zone_name temperature : pyval) (mode : string) (enabled : bool) :
  py_truthy (NeoHub.token (NeoHub.self w)) = false ->
  NeoHub.get_data server device_id w = (inl NeoHub.NOT_LOGGED_IN, w) /\
  NeoHub.set_temperature server device_id zone_name temperature w
    = (inl NeoHub.NOT_LOGGED_IN, w) /\
  NeoHub.set_mode server device_id zone_name mode w
    = (inl NeoHub.NOT_LOGGED_IN, w) /\
  NeoHub.set_away_mode server device_id enabled w
    = (inl NeoHub.NOT_LOGGED_IN, w) /\
  NeoHub.get_history server device_id zone_name w
    = (inl NeoHub.NOT_LOGGED_IN, w).
Proof.
  intros H.
  split; [apply get_data_requires_token, H|].
  split; [apply set_temperature_requires_token, H|].
  split; [apply set_mode_requires_token, H|].
  split; [apply set_away_mode_requires_token, H|].
  apply get_history_requires_token, H.
Qed.

(** C5: when the hub answers the login with a body whose [STATUS] equals 1,
    a token and a list of device records, [login] stores the token and
    returns the decoded devices, and with a token that is not empty the
    test of the authenticated methods passes afterwards.  When [STATUS]
    differs from 1, [login] raises an exception whose message ends with the
    status the hub sent, the client object is unchanged, and a client that
    held no token still has every authenticated method refuse. *)
Theorem login_spec (w : NeoHub.World) (resp : pydict) (status : pyval) :
  dict_get resp "STATUS" = Some status ->
  let w1 := posted w USER_LOGIN_ENDPOINT (login_params w) in
  (py_eq_int status 1 = true ->
   forall (tok : pyval) (ds : list pydict),
     dict_get resp "TOKEN" = Some tok ->
     dict_get resp "devices" = Some (VList (map VDict ds)) ->
     NeoHub.login (answers (VDict resp)) w
     = (inr (VList (map decoded_device ds)), with_token w1 tok) /\
     (py_truthy tok = true -> logged_in (with_token w1 tok))) /\
  (py_eq_int status 1 = false ->
   NeoHub.login (answers (VDict resp)) w
   = (inl (Exception ("Login failed with status: " ++ py_str status)), w1) /\
   NeoHub.self w1 = NeoHub.self w /\
   (py_truthy (NeoHub.token (NeoHub.self w)) = false -> refuses_all w1)).
Proof.
  intros Hstatus w1. split.
  - intros Hok tok ds Htok Hdevs. split; [|intros Ht; exact Ht].
    unfold NeoHub.login, NeoHub.bind, NeoHub.get_self, NeoHub.lift,
      NeoHub._form_post_request, answers, py_getitem.
    rewrite Hstatus, Hok. cbv beta iota delta [negb].
    rewrite Htok. unfold NeoHub.set_token. cbv beta iota.
    rewrite Hdevs. cbv beta iota delta [py_iter].
    rewrite map_result_from_dict. reflexivity.
  - intros Hko. split; [|split; [reflexivity|]].
    + unfold NeoHub.login, NeoHub.bind, NeoHub.get_self, NeoHub.lift,
        NeoHub._form_post_request, answers, py_getitem.
      rewrite Hstatus, Hko. reflexivity.
    + intros Hnone. apply falsy_token_refuses_all. exact Hnone.
Qed.

End ClientFacts.

Section DataFacts.
Context {B : PyBuiltins}.

Lemma printed_nil w : printed w [] = w.
Proof. destruct w. unfold printed. simpl. rewrite app_nil_r. reflexivity. Qed.

Lemma printed_app w l1 l2 :
  printed (printed w l1) l2 = printed w (l1 ++ l2)%list.
Proof. unfold printed. simpl. rewrite app_assoc. reflexivity. Qed.

(** The loop of [get_data] never raises: it returns the zones it had plus
    the zones of the batch, and prints the warnings of the batch. *)
Lemma decode_devices_spec records devices w :
  NeoHub.decode_devices records devices w
  = (inr (devices ++ decoded_zones records)%list,
     printed w (decode_warnings records)).
Proof.
  revert devices w. induction records as [|r records IH]; intros devices w.
  - simpl. rewrite app_nil_r, printed_nil. reflexivity.
  - simpl. destruct (LiveInfoDevice.from_dict r) as [e|zone].
    + unfold NeoHub.bind, NeoHub.print. rewrite IH.
      change ({| NeoHub.self := NeoHub.self w; NeoHub.sent := NeoHub.sent w;
                 NeoHub.stdout := NeoHub.stdout w ++ _ |})
        with (printed w ["Warning: Failed to parse device data: " ++ exn_str e]).
      rewrite printed_app. reflexivity.
    + rewrite IH, <- app_assoc. reflexivity.
Qed.

Lemma decoded_zones_app r1 r2 :
  decoded_zones (r1 ++ r2) = (decoded_zones r1 ++ decoded_zones r2)%list.
Proof. apply flat_map_app. Qed.

Lemma decode_warnings_app r1 r2 :
  decode_warnings (r1 ++ r2) = (decode_warnings r1 ++ decode_warnings r2)%list.
Proof. apply flat_map_app. Qed.

(** Each record of a batch is decoded or reported, never both. *)
Lemma decoded_or_reported records :
  (List.length (decoded_zones records)
   + List.length (decode_warnings records))%nat = List.length records.
Proof.
  induction records as [|r records IH]; [reflexivity|].
  change (r :: records) with ([r] ++ records)%list.
  rewrite decoded_zones_app, decode_warnings_app, !length_app.
  unfold decoded_zones at 1, decode_warnings at 1. cbv [flat_map].
  destruct (LiveInfoDevice.from_dict r); simpl List.length; lia.
Qed.

(** [get_data] once the token test has passed and the status has been
    read. *)
Lemma get_data_answered (w : NeoHub.World) (resp : pydict) (status device_id : pyval) :
  logged_in w ->
  dict_get resp "STATUS" = Some status ->
  NeoHub.get_data (answers (VDict resp)) device_id w =
  let w1 := posted w CACHE_VALUE_ENDPOINT (get_data_params w device_id) in
  if py_eq_int status 1 || py_eq_int status 201 then
    match dict_get resp "CACHE_VALUE" with
    | None => (inr (VDict resp), w1)
    | Some cache =>
        match py_contains "live_info" cache with
        | inl e => (inl e, w1)
        | inr false => (inr (VDict resp), w1)
        | inr true =>
            match py_getitem cache "live_info" with
            | inl e => (inl e, w1)
            | inr live =>
                match py_get live "devices" (VList []) with
                | inl e => (inl e, w1)
                | inr listed =>
                    match py_iter listed with
                    | inl e => (inl e, w1)
                    | inr records =>
                        let w2 := printed w1 (decode_warnings records) in
                        match py_setitem live "devices"
                                (VList (decoded_zones records)) with
                        | inl e => (inl e, w2)
                        | inr live' =>
                            match py_setitem cache "live_info" live' with
                            | inl e => (inl e, w2)
                            | inr cache' =>
                                (inr (VDict (dict_set resp "CACHE_VALUE" cache')), w2)
                            end
                        end
                    end
                end
            end
        end
    end
  else (inl (Exception ("Unexpected status from getData: " ++ py_str status)), w1).
Proof.
  unfold logged_in. intros Hin Hstatus.
  unfold NeoHub.get_data, NeoHub.bind, NeoHub.get_self.
  rewrite Hin. cbv beta iota delta [negb].
  unfold NeoHub._form_post_request, answers, NeoHub.lift, NeoHub.raise, NeoHub.ret.
  cbv beta iota zeta. unfold py_getitem at 1. rewrite Hstatus. cbv beta iota.
  destruct (py_eq_int status 1 || py_eq_int status 201); cbv beta iota delta [negb];
    [|reflexivity].
  unfold py_contains at 1, dict_mem.
  unfold py_getitem at 1 2.
  destruct (dict_get resp "CACHE_VALUE") as [cache|]; cbv beta iota; [|reflexivity].
  destruct (py_contains "live_info" cache) as [e|[|]]; cbv beta iota;
    try reflexivity.
  destruct (py_getitem cache "live_info") as [e|live]; cbv beta iota;
    try reflexivity.
  destruct (py_get live "devices" (VList [])) as [e|listed]; cbv beta iota;
    try reflexivity.
  destruct (py_iter listed) as [e|records]; cbv beta iota; try reflexivity.
  rewrite decode_devices_spec. reflexivity.
Qed.

End DataFacts.

Section DataClaims.
Context {B : PyBuiltins}.

(** C7: [get_data] accepts a body whose [STATUS] equals 1 or 201: with the
    documented shape of the body it returns.  Every other [STATUS] makes it
    raise an exception whose message ends with that status. *)
Theorem get_data_status
    (w : NeoHub.World) (resp : pydict) (status device_id : pyval) :
  logged_in w ->
  dict_get resp "STATUS" = Some status ->
  let w1 := posted w CACHE_VALUE_ENDPOINT (get_data_params w device_id) in
  (py_eq_int status 1 || py_eq_int status 201 = true ->
   live_info_shape resp ->
   exists body lines,
     NeoHub.get_data (answers (VDict resp)) device_id w
     = (inr body, printed w1 lines)) /\
  (py_eq_int status 1 || py_eq_int status 201 = false ->
   NeoHub.get_data (answers (VDict resp)) device_id w
   = (inl (Exception ("Unexpected status from getData: " ++ py_str status)), w1)).
Proof.
  intros Hin Hstatus w1. split; intros Hs.
  - intros Hshape. rewrite (get_data_answered w resp status device_id Hin Hstatus).
    cbv zeta. rewrite Hs. fold w1. unfold live_info_shape in Hshape.
    destruct (dict_get resp "CACHE_VALUE") as [cache|].
    2:{ exists (VDict resp), []. rewrite printed_nil. reflexivity. }
    destruct cache as [| | | | | |cache|]; try contradiction.
    unfold py_contains, dict_mem, py_getitem.
    destruct (dict_get cache "live_info") as [live|].
    2:{ exists (VDict resp), []. rewrite printed_nil. reflexivity. }
    destruct live as [| | | | | |live|]; try contradiction.
    unfold py_get.
    destruct (dict_get live "devices") as [listed|].
    + destruct listed as [| | | | |records| |]; try contradiction.
      eexists. eexists. reflexivity.
    + eexists. exists []. reflexivity.
  - rewrite (get_data_answered w resp status device_id Hin Hstatus).
    cbv zeta. rewrite Hs. reflexivity.
Qed.

(** C8: with an accepted status and a list of records under
    [CACHE_VALUE], [live_info], [devices], [get_data] returns the body with
    that list replaced by the zones of the records that decode, and prints
    one warning for each record that does not.  Every record is decoded or
    reported; a record that does not decode takes nothing away from the
    zones of the records before and after it; every dictionary decodes. *)
Theorem get_data_isolates_bad_records
    (w : NeoHub.World) (resp cache live : pydict) (records : list pyval)
    (status device_id : pyval) :
  logged_in w ->
  dict_get resp "STATUS" = Some status ->
  py_eq_int status 1 || py_eq_int status 201 = true ->
  dict_get resp "CACHE_VALUE" = Some (VDict cache) ->
  dict_get cache "live_info" = Some (VDict live) ->
  dict_get live "devices" = Some (VList records) ->
  NeoHub.get_data (answers (VDict resp)) device_id w
  = (inr (VDict (dict_set resp "CACHE_VALUE"
                   (VDict (dict_set cache "live_info"
                             (VDict (dict_set live "devices"
                                       (VList (decoded_zones records)))))))),
     printed (posted w CACHE_VALUE_ENDPOINT (get_data_params w device_id))
       (decode_warnings records)) /\
  (List.length (decoded_zones records)
   + List.length (decode_warnings records))%nat = List.length records /\
  (forall before bad after,
     records = (before ++ bad :: after)%list ->
     (forall items, bad <> VDict items) ->
     decoded_zones records
     = (decoded_zones before ++ decoded_zones after)%list /\
     decode_warnings records
     = (decode_warnings before
        ++ ("Warning: Failed to parse device data: "
            ++ exn_str (AttributeError (type_name_of bad) "items"))%string
        :: decode_warnings after)%list) /\
  (forall items,
     In (VDict items) records ->
     In (LiveInfoDevice.new (decoded_kwargs items)) (decoded_zones records)).
Proof.
  intros Hin Hstatus Hs Hcache Hlive Hdevices.
  split; [|split; [apply decoded_or_reported|split]].
  - rewrite (get_data_answered w resp status device_id Hin Hstatus).
    cbv zeta. rewrite Hs, Hcache.
    unfold py_contains, dict_mem, py_getitem. rewrite Hlive.
    unfold py_get. rewrite Hdevices. reflexivity.
  - intros before bad after -> Hbad.
    change (bad :: after) with ([bad] ++ after)%list.
    rewrite !decoded_zones_app, !decode_warnings_app.
    unfold decoded_zones at 2, decode_warnings at 2. cbv [flat_map].
    rewrite (from_dict_not_dict bad Hbad). split; reflexivity.
  - intros items Hitems. unfold decoded_zones. apply in_flat_map.
    exists (VDict items). split; [exact Hitems|].
    rewrite from_dict_dict. left. reflexivity.
Qed.

(** [ERROR] as a string is the message itself; without [ERROR] the message
    is the fixed text. *)
Lemma error_text_verbatim (resp : pydict) (msg : string) :
  dict_get resp "ERROR" = Some (VStr msg) -> error_text resp = msg.
Proof. intros H. unfold error_text. rewrite H. reflexivity. Qed.

Lemma error_text_absent (resp : pydict) :
  dict_get resp "ERROR" = None -> error_text resp = "Unknown error".
Proof. intros H. unfold error_text. rewrite H. reflexivity. Qed.

Ltac run_command Hin Hstatus :=
  unfold NeoHub.set_temperature, NeoHub.set_mode, NeoHub.set_away_mode,
    NeoHub.get_history, NeoHub.bind, NeoHub.get_self;
  unfold logged_in in Hin; rewrite Hin; cbv beta iota delta [negb];
  unfold NeoHub._form_post_request, answers, NeoHub.lift, NeoHub.raise,
    NeoHub.ret, py_getitem, py_get, error_text;
  cbv beta iota zeta; rewrite Hstatus; cbv beta iota.

(** C9 (as the code has it): each of the three mutating methods and
    [get_history] returns the body when its [STATUS] equals 1; otherwise it
    raises an exception whose message is the fixed prefix of the method
    followed by the server's [ERROR], word for word when it is a string,
    and by [Unknown error] only when the body has no [ERROR]. *)
Theorem command_status
    (w : NeoHub.World) (resp : pydict)
    (status device_id zone_name temperature : pyval)
    (mode : string) (enabled : bool) :
  logged_in w ->
  dict_get resp "STATUS" = Some status ->
  let hub := answers (VDict resp) in
  let w_temp := posted w "hm_set_temp"
                  (set_temperature_params w device_id zone_name temperature) in
  let w_mode := posted w "hm_set_mode"
                  (set_mode_params w device_id zone_name mode) in
  let w_away := posted w "hm_set_away"
                  (set_away_mode_params w device_id enabled) in
  let w_hist := posted w "hm_get_history"
                  (get_history_params w device_id zone_name) in
  (py_eq_int status 1 = true ->
   NeoHub.set_temperature hub device_id zone_name temperature w
     = (inr (VDict resp), w_temp) /\
   NeoHub.set_mode hub device_id zone_name mode w
     = (inr (VDict resp), w_mode) /\
   NeoHub.set_away_mode hub device_id enabled w
     = (inr (VDict resp), w_away) /\
   NeoHub.get_history hub device_id zone_name w
     = (inr (VDict resp), w_hist)) /\
  (py_eq_int status 1 = false ->
   NeoHub.set_temperature hub device_id zone_name temperature w
     = (inl (Exception ("Failed to set temperature: " ++ error_text resp)), w_temp) /\
   NeoHub.set_mode hub device_id zone_name mode w
     = (inl (Exception ("Failed to set mode: " ++ error_text resp)), w_mode) /\
   NeoHub.set_away_mode hub device_id enabled w
     = (inl (Exception ("Failed to set away mode: " ++ error_text resp)), w_away) /\
   NeoHub.get_history hub device_id zone_name w
     = (inl (Exception ("Failed to get history: " ++ error_text resp)), w_hist)) /\
  (forall msg, dict_get resp "ERROR" = Some (VStr msg) -> error_text resp = msg) /\
  (dict_get resp "ERROR" = None -> error_text resp = "Unknown error").
Proof.
  intros Hin Hstatus hub w_temp w_mode w_away w_hist.
  split; [|split; [|split; [apply error_text_verbatim | apply error_text_absent]]];
    intros Hs; subst hub; repeat split;
    run_command Hin Hstatus; rewrite Hs; cbv beta iota;
    try reflexivity;
    destruct (dict_get resp "ERROR"); reflexivity.
Qed.

End DataClaims.

(** ** The statements at concrete inputs *)

Lemma available_modes_bare_string_kept_witness :
  dict_get [("AVAILABLE_MODES", VStr "heat")] "AVAILABLE_MODES"
  = Some (VStr "heat") /\
  bind_result
    (LiveInfoDevice.from_dict (VDict [("AVAILABLE_MODES", VStr "heat")]))
    (fun zone => py_getattr zone "AVAILABLE_MODES") = inr (VStr "heat").
Proof.
  split; [reflexivity|].
  apply (available_modes_bare_string_kept [("AVAILABLE_MODES", VStr "heat")] "heat").
  reflexivity.
Defined.

Lemma get_device_type_absent_name_witness :
  bind_result (LiveInfoDevice.from_dict (VDict [("ACTUAL_TEMP", VStr "21.5")]))
    get_device_type
  = inl (TypeError "argument of type 'NoneType' is not iterable").
Proof.
  apply (get_device_type_absent_name [("ACTUAL_TEMP", VStr "21.5")]).
  - reflexivity.
  - simpl. discriminate.
Defined.

Lemma get_device_type_numeric_sentinel_witness :
  float_of_ascii "255.255" = Some float_255_255 /\
  bind_result
    (LiveInfoDevice.from_dict
       (VDict [("ZONE_NAME", VStr "Living Room");
               ("ACTUAL_TEMP", VFloat float_255_255)]))
    get_device_type = inr "THERMOSTAT".
Proof.
  split; [vm_compute; reflexivity|].
  rewrite from_dict_dict. cbv beta iota delta [bind_result].
  apply (get_device_type_numeric_sentinel _ (VStr "Living Room") float_255_255);
    vm_compute; reflexivity.
Defined.

Lemma is_valid_temperature_spec_witness :
  is_valid_temperature (VStr "21.5") "THERMOSTAT" = inr true.
Proof.
  destruct (proj1 is_valid_temperature_spec ascii_builtins "21.5")
    as [_ [valid [Hvalid Hiff]]].
  rewrite Hvalid. f_equal. apply Hiff.
  exists (S754_finite false 6051711999279104 (-48)).
  repeat split; vm_compute; reflexivity.
Defined.

Lemma authenticated_methods_require_token_witness :
  let w := with_token (fresh "user" "secret" None) (VStr EmptyString) in
  NeoHub.get_data (answers VNone) (VStr "dev") w = (inl NeoHub.NOT_LOGGED_IN, w) /\
  NeoHub.sent (snd (NeoHub.set_temperature (answers VNone) (VStr "dev")
                      (VStr "Hall") (VFloat float_21) w)) = [].
Proof.
  intros w.
  destruct (authenticated_methods_require_token (answers VNone) w
              (VStr "dev") (VStr "Hall") (VFloat float_21) "heat" true eq_refl)
    as [Hdata [Htemp _]].
  split; [exact Hdata|]. rewrite Htemp. reflexivity.
Defined.

Lemma login_spec_witness :
  let w := fresh "user" "secret" None in
  let w1 := posted w USER_LOGIN_ENDPOINT (login_params w) in
  (NeoHub.login
     (answers (VDict [("STATUS", VInt 1); ("TOKEN", VStr "abc");
                      ("devices", VList [])])) w
   = (inr (VList []), with_token w1 (VStr "abc")) /\
   logged_in (with_token w1 (VStr "abc"))) /\
  (NeoHub.login (answers (VDict [("STATUS", VInt 0)])) w
   = (inl (Exception "Login failed with status: 0"), w1) /\
   refuses_all w1).
Proof.
  intros w w1. split.
  - destruct (proj1 (login_spec w
                       [("STATUS", VInt 1); ("TOKEN", VStr "abc");
                        ("devices", VList [])] (VInt 1) eq_refl)
                eq_refl (VStr "abc") [] eq_refl eq_refl) as [Hrun Hin].
    split; [exact Hrun | exact (Hin eq_refl)].
  - destruct (proj2 (login_spec w [("STATUS", VInt 0)] (VInt 0) eq_refl) eq_refl)
      as [Hrun [_ Hrefuse]].
    split; [exact Hrun | exact (Hrefuse eq_refl)].
Defined.

Lemma get_data_status_witness :
  let w1 := posted logged_in_world CACHE_VALUE_ENDPOINT
              (get_data_params logged_in_world (VStr "dev")) in
  (exists body lines,
     NeoHub.get_data (answers (VDict [("STATUS", VInt 201)])) (VStr "dev")
       logged_in_world = (inr body, printed w1 lines)) /\
  NeoHub.get_data (answers (VDict [("STATUS", VInt 0)])) (VStr "dev")
    logged_in_world
  = (inl (Exception "Unexpected status from getData: 0"), w1).
Proof.
  intros w1. split.
  - exact (proj1 (get_data_status logged_in_world [("STATUS", VInt 201)]
                    (VInt 201) (VStr "dev") eq_refl eq_refl) eq_refl I).
  - exact (proj2 (get_data_status logged_in_world [("STATUS", VInt 0)]
                    (VInt 0) (VStr "dev") eq_refl eq_refl) eq_refl).
Defined.

Lemma get_data_isolates_bad_records_witness :
  exists zone,
    NeoHub.get_data (answers (VDict mixed_body)) (VStr "dev") logged_in_world
    = (inr (VDict [("STATUS", VInt 201);
                   ("CACHE_VALUE",
                    VDict [("live_info", VDict [("devices", VList [zone])])])]),
       printed (posted logged_in_world CACHE_VALUE_ENDPOINT
                  (get_data_params logged_in_world (VStr "dev")))
         ["Warning: Failed to parse device data: 'str' object has no attribute 'items'"]) /\
    py_getattr zone "ZONE_NAME" = inr (VStr "Hall").
Proof.
  eexists. split.
  - exact (proj1 (get_data_isolates_bad_records logged_in_world
                    mixed_body mixed_cache mixed_live mixed_records
                    (VInt 201) (VStr "dev")
                    eq_refl eq_refl eq_refl eq_refl eq_refl eq_refl)).
  - vm_compute. reflexivity.
Defined.

Lemma command_status_witness :
  NeoHub.set_temperature (answers (VDict [("STATUS", VInt 1)]))
    (VStr "dev") (VStr "Hall") (VFloat float_21) logged_in_world
  = (inr (VDict [("STATUS", VInt 1)]),
     posted logged_in_world "hm_set_temp"
       [("device_id", VStr "dev"); ("token", VStr "abc");
        ("zone", VStr "Hall"); ("temperature", VStr "21.0")]) /\
  fst (NeoHub.set_temperature
         (answers (VDict [("STATUS", VInt 0); ("ERROR", VStr "zone locked")]))
         (VStr "dev") (VStr "Hall") (VFloat float_21) logged_in_world)
  = inl (Exception "Failed to set temperature: zone locked").
Proof.
  split.
  - destruct (proj1 (command_status logged_in_world [("STATUS", VInt 1)]
                       (VInt 1) (VStr "dev") (VStr "Hall") (VFloat float_21)
                       "heat" true eq_refl eq_refl) eq_refl) as [Hrun _].
    rewrite Hrun. vm_compute. reflexivity.
  - destruct (proj1 (proj2 (command_status logged_in_world
                              [("STATUS", VInt 0); ("ERROR", VStr "zone locked")]
                              (VInt 0) (VStr "dev") (VStr "Hall") (VFloat float_21)
                              "heat" true eq_refl eq_refl)) eq_refl) as [Hrun _].
    rewrite Hrun. reflexivity.
Defined.

(** C9 as the specification words it does not hold: the exception of a
    failed command carries the server's message and nothing of the status.
    Statuses 0 and 2 with the same [ERROR] raise the very same exception,
    so no reading of the exception gives the status back. *)
Lemma command_error_omits_status :
  let run status :=
    fst (NeoHub.set_temperature
           (answers (VDict [("STATUS", VInt status);
                            ("ERROR", VStr "zone locked")]))
           (VStr "dev") (VStr "Hall") (VFloat float_21) logged_in_world) in
  run 0 = inl (Exception "Failed to set temperature: zone locked") /\
  run 2 = inl (Exception "Failed to set temperature: zone locked") /\
  ~ (exists status_of : exn -> Z,
       forall status, status <> 1 ->
         exists e, run status = inl e /\ status_of e = status).
Proof.
  intros run.
  assert (H0 : run 0 = inl (Exception "Failed to set temperature: zone locked"))
    by (vm_compute; reflexivity).
  assert (H2 : run 2 = inl (Exception "Failed to set temperature: zone locked"))
    by (vm_compute; reflexivity).
  split; [exact H0|]. split; [exact H2|].
  intros [status_of H].
  destruct (H 0 ltac:(discriminate)) as [e0 [E0 S0]].
  destruct (H 2 ltac:(discriminate)) as [e2 [E2 S2]].
  rewrite H0 in E0. rewrite H2 in E2.
  injection E0 as <-. injection E2 as <-. rewrite S0 in S2. discriminate.
Qed.
